(** * Frame-conversion helpers of the CNGI coordinates design notebook

    A shallow embedding of the five sketch functions of
    [docs/design/coordinates_design.ipynb]:
    [_reference_time], [_reference_location], [_target_location],
    [_change_frame] and [topo_to_lsrk], and of the module-level cell that
    builds a spectral coordinate eagerly.

    Python evaluation is modelled by an exception monad ([outcome]); the
    module-level names a function reads and the wall clock are collected in
    a [world]; the astronomy, array and I/O libraries the notebook calls are
    an interface ([library]) over which every general statement is
    quantified.  Imports are assumed to succeed. *)

From Stdlib Require Import ZArith QArith_base.
From stdpp Require Import gmap strings list.

Open Scope string_scope.
Open Scope list_scope.
Set Warnings "-register-all".

(** ** Values, exceptions and outcomes *)

(** Python objects that flow through the helpers.  Numbers are kept as
    exact decimals (no arithmetic is done on them here); [VArr] lists the
    items of an array along its first axis; [VObj] is an object built by a
    library constructor or method from the listed arguments. *)
Inductive value : Type :=
| VNum (x : Q)
| VStr (s : string)
| VDatetime (t : Z)
| VArr (xs : list value)
| VObj (cls : string) (args : list value).

Inductive exn : Type :=
| KeyError
| AttributeError
| IndexError
| NameError
| UnboundLocalError
| TypeError
| ValueError
| LibraryError.

Inductive outcome (A : Type) : Type :=
| Return (a : A)
| Raise (e : exn).

Arguments Return {A} a.
Arguments Raise {A} e.

#[global] Instance outcome_ret : MRet outcome := fun _ a => Return a.

#[global] Instance outcome_bind : MBind outcome := fun _ _ f m =>
  match m with
  | Return a => f a
  | Raise e => Raise e
  end.

(** [try: body except: handler] with a bare [except]: every exception of
    the body is swallowed and the handler runs instead; an exception of the
    handler itself is not caught. *)
Definition try_except {A : Type} (body handler : outcome A) : outcome A :=
  match body with
  | Return a => Return a
  | Raise _ => handler
  end.

Definition returns {A : Type} (m : outcome A) : bool :=
  match m with
  | Return _ => true
  | Raise _ => false
  end.

(** ** Dataset partitions *)

(** A labelled dataset partition: named data variables and attributes. *)
Record dataset : Type := Dataset {
  data_vars : gmap string value;
  attrs : gmap string value
}.

(** What attribute-style access finds: a data variable (a [DataArray]) or
    a plain entry of the attribute dictionary. *)
Inductive member : Type :=
| DataArray (v : value)
| Attribute (v : value).

Definition payload (m : member) : value :=
  match m with
  | DataArray v => v
  | Attribute v => v
  end.

(** [ds[k]]: data variables only. *)
Definition getitem (ds : dataset) (k : string) : outcome value :=
  match data_vars ds !! k with
  | Some v => Return v
  | None => Raise KeyError
  end.

(** [ds.k]: data variables first, then attributes. *)
Definition getattr (ds : dataset) (k : string) : outcome member :=
  match data_vars ds !! k with
  | Some v => Return (DataArray v)
  | None =>
      match attrs ds !! k with
      | Some v => Return (Attribute v)
      | None => Raise AttributeError
      end
  end.

(** [ds.attrs[k]]. *)
Definition attrs_getitem (ds : dataset) (k : string) : outcome value :=
  match attrs ds !! k with
  | Some v => Return v
  | None => Raise KeyError
  end.

(** [m.values]: only a [DataArray] has it. *)
Definition dot_values (m : member) : outcome value :=
  match m with
  | DataArray v => Return v
  | Attribute _ => Raise AttributeError
  end.

(** [a[0]] on array data: the first item along the first axis; a
    zero-dimensional or empty array has none. *)
Definition index0 (a : value) : outcome value :=
  match a with
  | VArr (x :: _) => Return x
  | _ => Raise IndexError
  end.

(** ** The world outside the arguments *)

(** The wall clock and the module-level names the helpers refer to without
    receiving them as parameters.  A name that was never bound is [None]
    ([false] for the package name [cngi]). *)
Record world : Type := World {
  clock : Z;
  g_global_xds : option dataset;
  g_something : option value;
  g_img_xds : option dataset;
  g_cngi : bool;
  g_change_frame : option (list value → outcome value)
}.

(** Reading a module-level name. *)
Definition global {A : Type} (binding : option A) : outcome A :=
  match binding with
  | Some a => Return a
  | None => Raise NameError
  end.

(** The notebook itself binds none of these names. *)
Definition notebook_world (now : Z) : world :=
  World now None None None false None.

(** ** External collaborators *)

(** The libraries the notebook calls: astropy (time, coordinates, units),
    the array reductions and the chunked broadcast of xarray, and the
    partition reader of [cngi.dio].  Any of them may raise. *)
Record library : Type := Library {
  Time : value → outcome value;
  EarthLocation_of_site : value → outcome value;
  EarthLocation : value → outcome value;
  get_itrs : value → value → outcome value;
  Angle : value → value → outcome value;
  SkyCoord : value → value → value → value → outcome value;
  SpectralCoord : value → value → value → value → outcome value;
  with_observer_stationary_relative_to : value → value → outcome value;
  times_unit : value → string → outcome value;
  mean : value → outcome value;
  chunk : value → outcome value;
  dtype : value → outcome value;
  apply_ufunc :
    (list value → outcome value) → list value → list (list string) →
    outcome value;
  read_vis : value → value → outcome dataset
}.

(** A number times a unit, for the literals of the source. *)
Definition quantity (x : Q) (unit : string) : value :=
  VObj "Quantity" [VNum x; VStr unit].

Definition default_radec : value := VStr "04h21m59.43s +19d32m06.4".
Definition default_recession : value := quantity (239 # 10) "km / s".
Definition default_distance : value := quantity (144321 # 1000) "pc".

(** ** Local variables *)

(** The local names of one call; a name is bound once it was assigned. *)
Definition assign (x : string) (e : outcome value)
    (σ : gmap string value) : outcome (gmap string value) :=
  v ← e; Return (<[x := v]> σ).

Definition local (σ : gmap string value) (x : string) : outcome value :=
  match σ !! x with
  | Some v => Return v
  | None => Raise UnboundLocalError
  end.

(** A [try]/[except] statement whose two suites assign locals. *)
Definition try_stmt (body handler : gmap string value → outcome (gmap string value))
    (σ : gmap string value) : outcome (gmap string value) :=
  try_except (body σ) (handler σ).

(** A call with positional arguments of a function that has [params]
    parameters: the count is checked before the body runs. *)
Inductive arg : Type :=
| ADataset (d : dataset)
| AValue (v : value).

Definition call_positional {A : Type} (params : nat) (args : list arg)
    (body : outcome A) : outcome A :=
  if decide (length args = params) then body else Raise TypeError.

Section Helpers.

Context (L : library).

(** ** Metadata extractor *)

(** [datetime.datetime.now()]. *)
Definition datetime_now (W : world) : outcome value :=
  Return (VDatetime (clock W)).

(** [input_xds['ASDM_startValidTime'][0]]. *)
Definition asdm_start (input_xds : dataset) : outcome value :=
  asdm ← getitem input_xds "ASDM_startValidTime";
  index0 asdm.

(** [input_xds.OBS_TIME_RANGE.values[0]]. *)
Definition obs_start (input_xds : dataset) : outcome value :=
  obs ← getattr input_xds "OBS_TIME_RANGE";
  vals ← dot_values obs;
  index0 vals.

Definition _reference_time (W : world) (input_xds : dataset) : outcome value :=
  try_except
    (reference_time ← asdm_start input_xds;
     reference_time ← obs_start input_xds;
     Return reference_time)
    (datetime_now W).

(** ** Observer-location resolver *)

(** The [try] suite: the named site. *)
Definition site_location (input_xds : dataset) (reference_time : value)
    : outcome value :=
  name ← getitem input_xds "OBS_TELESCOPE_NAME";
  site ← EarthLocation_of_site L name;
  obstime ← Time L reference_time;
  get_itrs L site obstime.

(** The [except] suite: the mean antenna position. *)
Definition centroid_location (input_xds : dataset) (reference_time : value)
    : outcome value :=
  ant ← getitem input_xds "ANT_POSITION";
  centre ← mean L ant;
  place ← EarthLocation L centre;
  obstime ← Time L reference_time;
  get_itrs L place obstime.

Definition _reference_location (input_xds : dataset) (reference_time : value)
    : outcome value :=
  try_except (site_location input_xds reference_time)
             (centroid_location input_xds reference_time).

(** ** Target-location resolver *)

(** [Angle(input_xds.SRC_DIRECTION * u.rad, input_xds.SRC_DIRECTION * u.rad)]. *)
Definition direction_angle (input_xds : dataset) : outcome value :=
  d1 ← getattr input_xds "SRC_DIRECTION";
  a1 ← times_unit L (payload d1) "rad";
  d2 ← getattr input_xds "SRC_DIRECTION";
  a2 ← times_unit L (payload d2) "rad";
  Angle L a1 a2.

(** [global_xds.SRC_PROPER_MOTION * u.Hz], on the module-level
    [global_xds]. *)
Definition proper_motion (W : world) : outcome value :=
  global_xds ← global (g_global_xds W);
  pm ← getattr global_xds "SRC_PROPER_MOTION";
  times_unit L (payload pm) "Hz".

(** The four [try]/[except] statements, from no local bound. *)
Definition target_locals (W : world) (input_xds : dataset)
    : outcome (gmap string value) :=
  σ ← try_stmt (assign "radec_string" (direction_angle input_xds))
               (assign "radec" (Return default_radec)) ∅;
  σ ← try_stmt (assign "target_frame" (Return (VStr "icrs")))
               (assign "target_frame" (Return (VStr "FK5"))) σ;
  σ ← try_stmt (assign "recession" (proper_motion W))
               (assign "recession" (Return default_recession)) σ;
  try_stmt (assign "distance" (global (g_something W)))
           (assign "distance" (Return default_distance)) σ.

Definition _target_location (W : world) (input_xds : dataset) : outcome value :=
  σ ← target_locals W input_xds;
  radec ← local σ "radec";
  target_frame ← local σ "target_frame";
  recession ← local σ "recession";
  distance ← local σ "distance";
  target_location ← SkyCoord L radec target_frame recession distance;
  Return target_location.

(** ** Frame-change operator *)

(** [s.split('')]: a string refuses an empty separator; nothing else
    stored in a dataset has a [split] method. *)
Definition split_empty_separator (s : value) : outcome value :=
  match s with
  | VStr _ => Raise ValueError
  | _ => Raise AttributeError
  end.

(** [xs[:-1]]. *)
Definition but_last (xs : value) : outcome value :=
  match xs with
  | VArr items => Return (VArr (removelast items))
  | _ => Raise TypeError
  end.

(** [u(...)] where [u] is the module [astropy.units]: a module is not
    callable. *)
Definition call_units_module (argument : value) : outcome value :=
  Raise TypeError.

(** [a.with_observer_stationary_relative_to(frame)]: a method of library
    objects; plain numbers and arrays do not have it. *)
Definition dot_with_observer_stationary_relative_to (a frame : value)
    : outcome value :=
  match a with
  | VObj _ _ => with_observer_stationary_relative_to L a frame
  | _ => Raise AttributeError
  end.

(** [a(axis=-1, keepdims=True)]: no value here is callable. *)
Definition call_value (a : value) : outcome value :=
  Raise TypeError.

Definition _change_frame (W : world) (input_array place source : value)
    : outcome value :=
  img_xds ← global (g_img_xds W);
  rest_frequency ← attrs_getitem img_xds "rest_frequency";
  pieces ← split_empty_separator rest_frequency;
  name ← but_last pieces;
  unit ← call_units_module name;
  _ ← SpectralCoord L input_array unit place source;
  output_array ←
    dot_with_observer_stationary_relative_to input_array (VStr "lsrk");
  call_value output_array.

(** ** Orchestrator *)

(** [from cngi.dio import read_vis] binds [read_vis] only, so each
    [cngi.dio.read_vis(...)] first looks the name [cngi] up at module
    level.  [_reference_location] receives the parameter [reference_time],
    not the local [time]; [_target_location] is called with two positional
    arguments; the function handed to the broadcast is the module-level
    name [change_frame]. *)
Definition topo_to_lsrk (W : world)
    (xds ddi reference_time observer_location target_location : value)
    : outcome value :=
  _ ← (if g_cngi W then Return () else Raise NameError);
  vis_xds ← read_vis L xds ddi;
  _ ← (if g_cngi W then Return () else Raise NameError);
  global_xds ← read_vis L xds (VStr "global");
  time ← _reference_time W global_xds;
  place ← _reference_location global_xds reference_time;
  source ← call_positional 1 [ADataset global_xds; AValue ddi]
             (_target_location W global_xds);
  change_frame ← global (g_change_frame W);
  data ← getattr vis_xds "DATA";
  chunked ← chunk L (payload data);
  data' ← getattr vis_xds "DATA";
  output_dtype ← dtype L (payload data');
  output_xds ← apply_ufunc L change_frame [place; source; chunked] [["chan"]];
  Return output_xds.

End Helpers.

(** ** Chunk-wise application

    The broadcast over chunks belongs to the array engine; for the
    parallel/serial equivalence the two sides are written out as the
    property words them. *)

(** Applying an operator to every chunk in turn and concatenating the
    per-chunk arrays along the split axis. *)
Fixpoint over_chunks (f : value → outcome value) (chunks : list value)
    : outcome (list value) :=
  match chunks with
  | [] => Return []
  | c :: rest =>
      out ← f c;
      items ← (match out with
               | VArr items => Return items
               | _ => Raise TypeError
               end);
      outs ← over_chunks f rest;
      Return (items ++ outs)
  end.

(** The unchunked array made of the given chunks. *)
Fixpoint unchunked (chunks : list value) : list value :=
  match chunks with
  | [] => []
  | VArr items :: rest => items ++ unchunked rest
  | _ :: rest => unchunked rest
  end.

(** The velocity and the distance the four statements settle on. *)
Definition chosen_recession (L : library) (W : world) : value :=
  match proper_motion L W with
  | Return v => v
  | Raise _ => default_recession
  end.

Definition chosen_distance (W : world) : value :=
  match g_something W with
  | Some v => v
  | None => default_distance
  end.

(** ** A concrete library and concrete partitions *)

(** A library that records what it was asked: every constructor builds the
    object naming its arguments, except that only two observatories are
    known sites and only numeric arrays have a mean. *)
Definition known_site (name : value) : bool :=
  match name with
  | VStr "ALMA" => true
  | VStr "VLA" => true
  | _ => false
  end.

Definition recording : library := {|
  Time := λ t, Return (VObj "Time" [t]);
  EarthLocation_of_site := λ name,
    if known_site name then Return (VObj "EarthLocation.of_site" [name])
    else Raise LibraryError;
  EarthLocation := λ p, Return (VObj "EarthLocation" [p]);
  get_itrs := λ place t, Return (VObj "ITRS" [place; t]);
  Angle := λ a b, Return (VObj "Angle" [a; b]);
  SkyCoord := λ radec frame rv dist, Return (VObj "SkyCoord" [radec; frame; rv; dist]);
  SpectralCoord := λ a unit obs tgt, Return (VObj "SpectralCoord" [a; unit; obs; tgt]);
  with_observer_stationary_relative_to := λ a frame,
    Return (VObj "with_observer_stationary_relative_to" [a; frame]);
  times_unit := λ x unit,
    match x with
    | VStr _ => Raise TypeError
    | _ => Return (VObj "Quantity" [x; VStr unit])
    end;
  mean := λ a,
    match a with
    | VArr (_ :: _) => Return (VObj "mean" [a])
    | _ => Raise TypeError
    end;
  chunk := λ a, Return a;
  dtype := λ a, Return (VStr "complex128");
  apply_ufunc := λ f args dims, f args;
  read_vis := λ xds ddi,
    match ddi with
    | VStr "global" =>
        Return (Dataset {[ "OBS_TELESCOPE_NAME" := VStr "ALMA" ]} ∅)
    | _ => Return (Dataset {[ "DATA" := VArr [VNum 1; VNum 2] ]} ∅)
    end
|}.

(** A global partition carrying every documented field. *)
Definition complete_xds : dataset :=
  Dataset
    (<[ "ASDM_startValidTime" := VArr [VStr "2019-04-24T02:32:10"] ]>
     (<[ "OBS_TIME_RANGE" := VArr [VNum 4860000000; VNum 4860003600] ]>
     (<[ "OBS_TELESCOPE_NAME" := VStr "ALMA" ]>
     (<[ "ANT_POSITION" := VArr [VNum 2225061; VNum (-5440061); VNum (-2481682)] ]>
     (<[ "SRC_DIRECTION" := VArr [VNum (114 # 100); VNum (34 # 100)] ]>
     (<[ "SRC_PROPER_MOTION" := VArr [VNum 0; VNum 0] ]> ∅))))))
    (<[ "SRC_DISTANCE" := VNum (144321 # 1000) ]> ∅).

(** A partition with no field at all. *)
Definition empty_xds : dataset := Dataset ∅ ∅.

(** An image whose attributes hold a rest frequency. *)
Definition image_xds : dataset :=
  Dataset ∅ (<[ "rest_frequency" := VStr "230.538 GHz" ]> ∅).

(** A world in which [img_xds] is bound to that image and the package name
    [cngi] is bound. *)
Definition image_world (now : Z) : world :=
  World now None None (Some image_xds) true None.

(** A partition with antenna positions only. *)
Definition antenna_only_xds : dataset :=
  Dataset
    (<[ "ANT_POSITION" := VArr [VNum 2225061; VNum (-5440061); VNum (-2481682)] ]> ∅)
    ∅.

(** ** The eager spectral-frame cell

    The last code cell of the notebook is one module-level assignment,
    [sc = SpectralCoord(img_xds.DATA.chan, unit=astropy.units(...),
    observer=observatory, target=source, doppler_reference=...,
    doppler_convention=...)].  The coordinate access and the six-argument
    constructor are library calls; [observatory] and [source] are two more
    module-level names. *)

Section SpectralCell.

Context (coord : value → string → outcome value).
Context (spectral_coord :
           value → value → value → value → value → value → outcome value).

(** [m.chan]: a coordinate of a [DataArray]; an attribute entry has none. *)
Definition dot_coord (m : member) (name : string) : outcome value :=
  match m with
  | DataArray v => coord v name
  | Attribute _ => Raise AttributeError
  end.

Definition spectral_coord_cell (W : world) (observatory source : option value)
    : outcome value :=
  img_xds ← global (g_img_xds W);
  data ← getattr img_xds "DATA";
  chan ← dot_coord data "chan";
  img_xds ← global (g_img_xds W);
  rest_frequency ← attrs_getitem img_xds "rest_frequency";
  pieces ← split_empty_separator rest_frequency;
  name ← but_last pieces;
  unit ← call_units_module name;
  observer ← global observatory;
  target ← global source;
  img_xds ← global (g_img_xds W);
  doppler_reference ← attrs_getitem img_xds "spectral__reference";
  img_xds ← global (g_img_xds W);
  doppler_convention ← attrs_getitem img_xds "velocity__type";
  sc ← spectral_coord chan unit observer target
         doppler_reference doppler_convention;
  Return sc.

End SpectralCell.

(** ** More concrete libraries, worlds and partitions *)

(** The recording library, except that no reference time can be parsed. *)
Definition unparsed_time : library := {|
  Time := λ t, Raise ValueError;
  EarthLocation_of_site := EarthLocation_of_site recording;
  EarthLocation := EarthLocation recording;
  get_itrs := get_itrs recording;
  Angle := Angle recording;
  SkyCoord := SkyCoord recording;
  SpectralCoord := SpectralCoord recording;
  with_observer_stationary_relative_to :=
    with_observer_stationary_relative_to recording;
  times_unit := times_unit recording;
  mean := mean recording;
  chunk := chunk recording;
  dtype := dtype recording;
  apply_ufunc := apply_ufunc recording;
  read_vis := read_vis recording
|}.


(** A partition naming a telescope that is not a known site. *)
Definition unknown_site_xds : dataset :=
  Dataset (<[ "OBS_TELESCOPE_NAME" := VStr "EVLA_PROTOTYPE" ]> ∅) ∅.

(** A world in which [global_xds] and [something] are bound at module
    level. *)
Definition module_world (now : Z) : world :=
  World now (Some complete_xds) (Some (quantity (10 # 1) "pc")) None false None.

(** * Properties *)

(** ** Outcomes *)

Lemma returns_false {A : Type} (m : outcome A) :
  returns m = false ↔ ∃ e, m = Raise e.
Proof.
  destruct m as [a|e]; simpl; split; intros H; eauto; try discriminate.
  by destruct H.
Qed.

Lemma bind_never_returns {A B : Type} (m : outcome A) (f : A → outcome B) :
  (∀ a, returns (f a) = false) → returns (m ≫= f) = false.
Proof. intros Hf. destruct m as [a|e]; [apply Hf | done]. Qed.

(** ** The reference time *)

Lemma _reference_time_cases W ds :
  _reference_time W ds =
    match asdm_start ds, obs_start ds with
    | Return _, Return t => Return t
    | _, _ => Return (VDatetime (clock W))
    end.
Proof.
  unfold _reference_time, datetime_now.
  destruct (asdm_start ds) as [a|e]; simpl; [|done].
  by destruct (obs_start ds).
Qed.

Lemma asdm_start_absent ds :
  data_vars ds !! "ASDM_startValidTime" = None → asdm_start ds = Raise KeyError.
Proof. unfold asdm_start, getitem. by intros ->. Qed.

Lemma obs_start_absent ds :
  data_vars ds !! "OBS_TIME_RANGE" = None → returns (obs_start ds) = false.
Proof.
  unfold obs_start, getattr. intros ->.
  by destruct (attrs ds !! "OBS_TIME_RANGE").
Qed.



(** ** The target location *)

Section Target.

Context (L : library) (W : world) (ds : dataset).

(** The [try] suite of the frame is one constant assignment: its handler
    never runs. *)
Lemma frame_statement (σ : gmap string value) :
  try_stmt (assign "target_frame" (Return (VStr "icrs")))
           (assign "target_frame" (Return (VStr "FK5"))) σ
  = Return (<["target_frame" := VStr "icrs"]> σ).
Proof. reflexivity. Qed.

Lemma target_locals_eq :
  target_locals L W ds =
    Return (<["distance" := chosen_distance W]>
           (<["recession" := chosen_recession L W]>
           (<["target_frame" := VStr "icrs"]>
              match direction_angle L ds with
              | Return a => <["radec_string" := a]> ∅
              | Raise _ => <["radec" := default_radec]> ∅
              end))).
Proof.
  unfold target_locals, try_stmt, assign, chosen_distance, chosen_recession.
  destruct (direction_angle L ds); simpl;
    destruct (proper_motion L W); simpl;
    by destruct (g_something W).
Qed.

Lemma _target_location_cases :
  _target_location L W ds =
    match direction_angle L ds with
    | Return _ => Raise UnboundLocalError
    | Raise _ =>
        SkyCoord L default_radec (VStr "icrs")
                 (chosen_recession L W) (chosen_distance W)
    end.
Proof.
  unfold _target_location. rewrite target_locals_eq. simpl.
  destruct (direction_angle L ds) as [a|e]; unfold local; simplify_map_eq.
  - done.
  - simpl. by destruct (SkyCoord L _ _ _ _).
Qed.

End Target.

(** ** The claims about the metadata resolvers *)

(** C6: a partition that lacks an observation-time field (no
    [ASDM_startValidTime] data variable, or no [OBS_TIME_RANGE] data
    variable) makes [_reference_time] return the current wall-clock time;
    it returns, it does not raise. *)
Theorem reference_time_without_time_fields (W : world) (ds : dataset) :
  data_vars ds !! "ASDM_startValidTime" = None
  ∨ data_vars ds !! "OBS_TIME_RANGE" = None →
  _reference_time W ds = Return (VDatetime (clock W)).
Proof.
  intros Hmissing. rewrite _reference_time_cases.
  destruct Hmissing as [Hasdm|Hobs].
  - by rewrite (asdm_start_absent ds Hasdm).
  - apply obs_start_absent, returns_false in Hobs as [e ->].
    by destruct (asdm_start ds).
Qed.

Lemma reference_time_without_time_fields_witness :
  (data_vars empty_xds !! "ASDM_startValidTime" = None
   ∨ data_vars empty_xds !! "OBS_TIME_RANGE" = None)
  ∧ _reference_time (notebook_world 1556073130) empty_xds
    = Return (VDatetime 1556073130).
Proof.
  assert (H : data_vars empty_xds !! "ASDM_startValidTime" = None
              ∨ data_vars empty_xds !! "OBS_TIME_RANGE" = None)
    by (left; reflexivity).
  split; [exact H|].
  exact (reference_time_without_time_fields (notebook_world 1556073130) empty_xds H).
Defined.



(** C9: in [_target_location] the handler that assigns ['FK5'] never runs:
    the frame statement always binds [target_frame] to ['icrs'], so the
    locals of every call hold ['icrs'], and whenever the function returns a
    target location it is the one [SkyCoord] built with frame ['icrs']. *)
Theorem target_frame_always_icrs (L : library) (W : world) (ds : dataset) :
  (∀ σ : gmap string value,
     try_stmt (assign "target_frame" (Return (VStr "icrs")))
              (assign "target_frame" (Return (VStr "FK5"))) σ
     = Return (<["target_frame" := VStr "icrs"]> σ))
  ∧ target_locals L W ds ≫= (λ σ, local σ "target_frame")
    = Return (VStr "icrs")
  ∧ (∀ v, _target_location L W ds = Return v →
          SkyCoord L default_radec (VStr "icrs")
                   (chosen_recession L W) (chosen_distance W) = Return v).
Proof.
  split; [apply frame_statement|]. split.
  - rewrite target_locals_eq. simpl. unfold local. by simplify_map_eq.
  - intros v. rewrite _target_location_cases.
    by destruct (direction_angle L ds).
Qed.

Lemma target_frame_always_icrs_witness :
  _target_location recording (notebook_world 0) empty_xds
    = Return (VObj "SkyCoord"
                [default_radec; VStr "icrs"; default_recession; default_distance])
  ∧ SkyCoord recording default_radec (VStr "icrs")
      (chosen_recession recording (notebook_world 0))
      (chosen_distance (notebook_world 0))
    = Return (VObj "SkyCoord"
                [default_radec; VStr "icrs"; default_recession; default_distance]).
Proof.
  assert (H : _target_location recording (notebook_world 0) empty_xds
              = Return (VObj "SkyCoord"
                  [default_radec; VStr "icrs"; default_recession; default_distance]))
    by (vm_compute; reflexivity).
  split; [exact H|].
  exact (proj2 (proj2 (target_frame_always_icrs recording (notebook_world 0) empty_xds))
           _ H).
Defined.

(** ** The observer location *)

Section Observer.

Context (L : library) (ds : dataset) (reference_time : value).

Lemma _reference_location_site v :
  site_location L ds reference_time = Return v →
  _reference_location L ds reference_time = Return v.
Proof. unfold _reference_location. by intros ->. Qed.

Lemma _reference_location_centroid :
  returns (site_location L ds reference_time) = false →
  _reference_location L ds reference_time
  = centroid_location L ds reference_time.
Proof.
  unfold _reference_location. intros [e ->]%returns_false. reflexivity.
Qed.


End Observer.

(** C1, the claim as stated fails: with neither a telescope name nor
    antenna positions the fallback of [_reference_location] raises
    [KeyError] to the caller. *)
Lemma reference_location_raises_without_positions :
  _reference_location recording empty_xds (VDatetime 1556073130)
  = Raise KeyError.
Proof. vm_compute. reflexivity. Qed.

(** C1, amended: [_reference_time] returns a value on every partition,
    and when either of its two reads fails that value is the wall-clock
    time.  [_reference_location] returns the site location when the site chain
    succeeds and otherwise swallows that failure and is the antenna
    centroid chain, whose own outcome (value or exception) is the
    function's.  In [_target_location] the four [try] statements never
    raise, and when the direction lookup fails the function is the
    [SkyCoord] call on the default direction, frame ['icrs'] and the chosen
    (looked-up or default) velocity and distance. *)
Theorem resolver_fallbacks
    (L : library) (W : world) (ds : dataset) (reference_time : value) :
  returns (_reference_time W ds) = true
  ∧ (∀ v, site_location L ds reference_time = Return v →
          _reference_location L ds reference_time = Return v)
  ∧ (returns (site_location L ds reference_time) = false →
     _reference_location L ds reference_time
     = centroid_location L ds reference_time)
  ∧ returns (target_locals L W ds) = true
  ∧ (returns (direction_angle L ds) = false →
     _target_location L W ds
     = SkyCoord L default_radec (VStr "icrs")
                (chosen_recession L W) (chosen_distance W))
  ∧ (returns (asdm_start ds) = false ∨ returns (obs_start ds) = false →
     _reference_time W ds = Return (VDatetime (clock W))).
Proof.
  split_and!.
  - rewrite _reference_time_cases.
    by destruct (asdm_start ds); [destruct (obs_start ds)|].
  - apply _reference_location_site.
  - apply _reference_location_centroid.
  - by rewrite target_locals_eq.
  - intros [e He]%returns_false. by rewrite _target_location_cases, He.
  - rewrite _reference_time_cases.
    intros [[e He]%returns_false|[e He]%returns_false]; rewrite He.
    + done.
    + by destruct (asdm_start ds).
Qed.

Lemma resolver_fallbacks_witness :
  returns (site_location recording antenna_only_xds (VDatetime 1556073130)) = false
  ∧ _reference_location recording antenna_only_xds (VDatetime 1556073130)
    = centroid_location recording antenna_only_xds (VDatetime 1556073130)
  ∧ returns (direction_angle recording antenna_only_xds) = false
  ∧ _target_location recording (notebook_world 1556073130) antenna_only_xds
    = SkyCoord recording default_radec (VStr "icrs")
        (chosen_recession recording (notebook_world 1556073130))
        (chosen_distance (notebook_world 1556073130))
  ∧ returns (asdm_start antenna_only_xds) = false
  ∧ _reference_time (notebook_world 1556073130) antenna_only_xds
    = Return (VDatetime 1556073130).
Proof.
  pose proof (resolver_fallbacks recording (notebook_world 1556073130)
                antenna_only_xds (VDatetime 1556073130))
    as (_ & _ & Hcentroid & _ & Htarget & Hclock).
  assert (Hsite : returns (site_location recording antenna_only_xds
                             (VDatetime 1556073130)) = false)
    by (vm_compute; reflexivity).
  assert (Hdir : returns (direction_angle recording antenna_only_xds) = false)
    by (vm_compute; reflexivity).
  assert (Hasdm : returns (asdm_start antenna_only_xds) = false)
    by (vm_compute; reflexivity).
  split; [exact Hsite|]. split; [exact (Hcentroid Hsite)|].
  split; [exact Hdir|]. split; [exact (Htarget Hdir)|].
  split; [exact Hasdm|]. exact (Hclock (or_introl Hasdm)).
Defined.




(** ** The frame-change operator and the orchestrator *)

Section Operator.

Context (L : library).

Lemma _change_frame_never_returns (W : world) (input_array place source : value) :
  returns (_change_frame L W input_array place source) = false.
Proof.
  unfold _change_frame.
  apply bind_never_returns; intros img_xds.
  apply bind_never_returns; intros rest_frequency.
  by destruct rest_frequency.
Qed.

(** The outcome of [_change_frame] is settled by the binding of
    [img_xds]. *)
Lemma _change_frame_outcome (W : world) (input_array place source : value) :
  _change_frame L W input_array place source =
    match g_img_xds W with
    | None => Raise NameError
    | Some img_xds =>
        match attrs img_xds !! "rest_frequency" with
        | None => Raise KeyError
        | Some (VStr _) => Raise ValueError
        | Some _ => Raise AttributeError
        end
    end.
Proof.
  unfold _change_frame, attrs_getitem.
  destruct (g_img_xds W) as [img_xds|]; simpl; [|done].
  destruct (attrs img_xds !! "rest_frequency") as [rf|]; simpl; [|done].
  by destruct rf.
Qed.

Lemma call_positional_mismatch {A : Type} (d : dataset) (v : value)
    (body : outcome A) :
  call_positional 1 [ADataset d; AValue v] body = Raise TypeError.
Proof. reflexivity. Qed.

Lemma topo_to_lsrk_never_returns
    (W : world) (xds ddi reference_time observer_location target_location : value) :
  returns (topo_to_lsrk L W xds ddi reference_time observer_location
             target_location) = false.
Proof.
  unfold topo_to_lsrk.
  apply bind_never_returns; intros _.
  apply bind_never_returns; intros vis_xds.
  apply bind_never_returns; intros _.
  apply bind_never_returns; intros global_xds.
  apply bind_never_returns; intros time.
  apply bind_never_returns; intros place.
  by rewrite call_positional_mismatch.
Qed.

Lemma over_chunks_never_returns (f : value → outcome value) c cs :
  (∀ a, returns (f a) = false) → returns (over_chunks f (c :: cs)) = false.
Proof.
  intros Hf. simpl. specialize (Hf c). by destruct (f c).
Qed.

End Operator.

(** C3: the orchestrator cannot do what the contract says.  On every
    dataset handle and partition selector, in every world and with every
    library, [topo_to_lsrk] returns no dataset; once both partitions are
    read and the first two resolvers succeed, the call that passes two
    arguments to the one-parameter [_target_location] raises [TypeError];
    without a module-level [cngi] the first read already raises
    [NameError]. *)
Theorem topo_to_lsrk_always_raises :
  (∀ (L : library) (W : world)
     (xds ddi reference_time observer_location target_location : value),
     returns (topo_to_lsrk L W xds ddi reference_time observer_location
                target_location) = false)
  ∧ topo_to_lsrk recording (image_world 1556073130) (VStr "vis.zarr") (VNum 0)
      (VStr "2019-04-24T02:32:10") (VStr "observer") (VStr "target")
    = Raise TypeError
  ∧ topo_to_lsrk recording (notebook_world 1556073130) (VStr "vis.zarr") (VNum 0)
      (VStr "2019-04-24T02:32:10") (VStr "observer") (VStr "target")
    = Raise NameError.
Proof.
  split; [apply topo_to_lsrk_never_returns|].
  split; vm_compute; reflexivity.
Qed.

(** C4: [_change_frame] returns no array, so no returned array has the
    shape of the input.  Every call raises while it evaluates the unit
    expression: [NameError] when [img_xds] is unbound, [ValueError] from
    [split('')] on a string rest frequency. *)
Theorem change_frame_always_raises :
  (∀ (L : library) (W : world) (input_array place source : value),
     returns (_change_frame L W input_array place source) = false)
  ∧ _change_frame recording (notebook_world 1556073130)
      (VArr [VNum 1; VNum 2; VNum 3]) (VStr "observer") (VStr "target")
    = Raise NameError
  ∧ _change_frame recording (image_world 1556073130)
      (VArr [VNum 1; VNum 2; VNum 3]) (VStr "observer") (VStr "target")
    = Raise ValueError.
Proof.
  split; [apply _change_frame_never_returns|].
  split; vm_compute; reflexivity.
Qed.

(** C5: neither side of the chunk equivalence yields an array.  For every
    non-empty list of chunks the chunk-wise application of [_change_frame]
    raises at the first chunk, and so does the single application to the
    unchunked array. *)
Theorem chunked_change_frame_always_raises :
  (∀ (L : library) (W : world) (place source c : value) (cs : list value),
     returns (over_chunks (λ a, _change_frame L W a place source) (c :: cs))
       = false
     ∧ returns (_change_frame L W (VArr (unchunked (c :: cs))) place source)
       = false)
  ∧ over_chunks
      (λ a, _change_frame recording (image_world 1556073130) a
              (VStr "observer") (VStr "target"))
      [VArr [VArr [VNum 1; VNum 2]]; VArr [VArr [VNum 3; VNum 4]]]
    = Raise ValueError
  ∧ _change_frame recording (image_world 1556073130)
      (VArr (unchunked [VArr [VArr [VNum 1; VNum 2]]; VArr [VArr [VNum 3; VNum 4]]]))
      (VStr "observer") (VStr "target")
    = Raise ValueError.
Proof.
  split.
  - intros L W place source c cs. split.
    + apply over_chunks_never_returns. intros a.
      apply _change_frame_never_returns.
    + apply _change_frame_never_returns.
  - split; vm_compute; reflexivity.
Qed.

(** C8, the claim as stated fails: [_change_frame] is not a function of
    its arguments alone.  With the same library and the same arguments the
    outcome differs between a world where [img_xds] is unbound and one
    where it is bound: the call reads that module-level name. *)
Lemma change_frame_reads_img_xds :
  ¬ (∀ (W1 W2 : world) (input_array place source : value),
       _change_frame recording W1 input_array place source
       = _change_frame recording W2 input_array place source).
Proof.
  intros H.
  specialize (H (notebook_world 0) (image_world 0)
                (VArr [VNum 1; VNum 2; VNum 3]) (VStr "observer") (VStr "target")).
  vm_compute in H. discriminate H.
Qed.

(** C8, amended: the outcome of [_change_frame] is a function of its
    arguments and of the module-level binding of [img_xds], the only state
    outside its arguments that it reads: two calls with equal arguments
    in worlds that agree on [img_xds] have equal outcomes, whatever the
    clock and the other module-level names are. *)
Theorem change_frame_depends_on_img_xds_only
    (L : library) (W1 W2 : world) (input_array place source : value) :
  g_img_xds W1 = g_img_xds W2 →
  _change_frame L W1 input_array place source
  = _change_frame L W2 input_array place source.
Proof.
  intros Himg. unfold _change_frame. by rewrite Himg.
Qed.

Lemma change_frame_depends_on_img_xds_only_witness :
  g_img_xds (image_world 0)
    = g_img_xds (World 1556073130 (Some complete_xds) (Some (VNum 1))
                   (Some image_xds) false None)
  ∧ _change_frame recording (image_world 0)
      (VArr [VNum 1; VNum 2; VNum 3]) (VStr "observer") (VStr "target")
    = _change_frame recording
        (World 1556073130 (Some complete_xds) (Some (VNum 1))
           (Some image_xds) false None)
        (VArr [VNum 1; VNum 2; VNum 3]) (VStr "observer") (VStr "target").
Proof.
  split; [reflexivity|].
  apply (change_frame_depends_on_img_xds_only recording (image_world 0)
           (World 1556073130 (Some complete_xds) (Some (VNum 1))
              (Some image_xds) false None)).
  reflexivity.
Defined.

(** * Further properties of the helpers *)

(** ** [_reference_time] *)

(** X1: [_reference_time] read off the partition's content.  The first
    element of the [OBS_TIME_RANGE] data variable is returned exactly when
    both [ASDM_startValidTime] and [OBS_TIME_RANGE] are non-empty arrays
    among the data variables; an absent, empty or zero-dimensional variable
    gives the wall-clock time, and the attribute dictionary is never
    decisive. *)
Theorem reference_time_by_content (W : world) (ds : dataset) :
  _reference_time W ds =
    match data_vars ds !! "ASDM_startValidTime",
          data_vars ds !! "OBS_TIME_RANGE" with
    | Some (VArr (_ :: _)), Some (VArr (t :: _)) => Return t
    | _, _ => Return (VDatetime (clock W))
    end.
Proof.
  rewrite _reference_time_cases.
  unfold asdm_start, obs_start, getitem, getattr.
  destruct (data_vars ds !! "ASDM_startValidTime") as [a|]; simpl; [|done].
  assert (Hobs :
    (match data_vars ds !! "OBS_TIME_RANGE" with
     | Some v => Return (DataArray v)
     | None =>
         match attrs ds !! "OBS_TIME_RANGE" with
         | Some v => Return (Attribute v)
         | None => Raise AttributeError
         end
     end ≫= λ obs, dot_values obs ≫= λ vals, index0 vals)
    = match data_vars ds !! "OBS_TIME_RANGE" with
      | Some (VArr (t :: _)) => Return t
      | Some _ => Raise IndexError
      | None => Raise AttributeError
      end).
  { destruct (data_vars ds !! "OBS_TIME_RANGE") as [o|]; simpl.
    - by destruct o as [| | |[|t ts]|].
    - by destruct (attrs ds !! "OBS_TIME_RANGE"). }
  rewrite Hobs. clear Hobs.
  destruct a as [| | |[|x xs]|]; simpl;
    destruct (data_vars ds !! "OBS_TIME_RANGE") as [o|]; try done;
    by destruct o as [| | |[|t ts]|].
Qed.

(** ** [_reference_location] *)

Section ObserverFurther.

Context (L : library).

Lemma site_location_time_fails ds rt :
  returns (Time L rt) = false → returns (site_location L ds rt) = false.
Proof.
  intros [e He]%returns_false. unfold site_location.
  apply bind_never_returns; intros name.
  apply bind_never_returns; intros site.
  by rewrite He.
Qed.

Lemma centroid_location_time_fails ds rt :
  returns (Time L rt) = false → returns (centroid_location L ds rt) = false.
Proof.
  intros [e He]%returns_false. unfold centroid_location.
  apply bind_never_returns; intros ant.
  apply bind_never_returns; intros centre.
  apply bind_never_returns; intros place.
  by rewrite He.
Qed.

Lemma site_location_insert_ant vars ats ant rt :
  site_location L (Dataset (<["ANT_POSITION" := ant]> vars) ats) rt
  = site_location L (Dataset vars ats) rt.
Proof.
  unfold site_location, getitem; simpl.
  by rewrite lookup_insert_ne.
Qed.

End ObserverFurther.

(** X2: when the site chain fails and the partition has no [ANT_POSITION]
    data variable, the caller of [_reference_location] gets [KeyError],
    whatever made the site chain fail: that exception is masked. *)
Theorem reference_location_masks_site_error
    (L : library) (ds : dataset) (reference_time : value) :
  returns (site_location L ds reference_time) = false →
  data_vars ds !! "ANT_POSITION" = None →
  _reference_location L ds reference_time = Raise KeyError.
Proof.
  intros Hsite Hant. rewrite (_reference_location_centroid L ds _ Hsite).
  unfold centroid_location, getitem. by rewrite Hant.
Qed.

Lemma reference_location_masks_site_error_witness :
  returns (site_location recording unknown_site_xds (VDatetime 1556073130))
    = false
  ∧ site_location recording unknown_site_xds (VDatetime 1556073130)
    = Raise LibraryError
  ∧ _reference_location recording unknown_site_xds (VDatetime 1556073130)
    = Raise KeyError.
Proof.
  assert (Hsite : returns (site_location recording unknown_site_xds
                             (VDatetime 1556073130)) = false)
    by (vm_compute; reflexivity).
  split; [exact Hsite|]. split; [vm_compute; reflexivity|].
  exact (reference_location_masks_site_error recording unknown_site_xds
           (VDatetime 1556073130) Hsite eq_refl).
Defined.

(** X3: a reference time that [Time] cannot convert makes
    [_reference_location] raise on every partition: both the site chain
    and the antenna fallback need the converted time. *)
Theorem reference_location_needs_time
    (L : library) (ds : dataset) (reference_time : value) :
  returns (Time L reference_time) = false →
  returns (_reference_location L ds reference_time) = false.
Proof.
  intros Htime.
  rewrite (_reference_location_centroid L ds _
             (site_location_time_fails L ds _ Htime)).
  by apply centroid_location_time_fails.
Qed.

Lemma reference_location_needs_time_witness :
  returns (Time unparsed_time (VStr "not a time")) = false
  ∧ returns (_reference_location unparsed_time complete_xds
               (VStr "not a time")) = false.
Proof.
  split; [reflexivity|].
  apply (reference_location_needs_time unparsed_time complete_xds
           (VStr "not a time")).
  reflexivity.
Defined.

(** X4: a partition whose telescope name is missing, or is a name the
    site lookup rejects, gets exactly the antenna-centroid computation,
    value or exception. *)
Theorem reference_location_without_known_site
    (L : library) (ds : dataset) (reference_time : value) :
  data_vars ds !! "OBS_TELESCOPE_NAME" = None
  ∨ (∃ name, data_vars ds !! "OBS_TELESCOPE_NAME" = Some name
             ∧ returns (EarthLocation_of_site L name) = false) →
  _reference_location L ds reference_time
  = centroid_location L ds reference_time.
Proof.
  intros Hname. apply _reference_location_centroid.
  unfold site_location, getitem.
  destruct Hname as [->|(name & -> & [e He]%returns_false)]; [done|].
  simpl. by rewrite He.
Qed.

Lemma reference_location_without_known_site_witness :
  data_vars antenna_only_xds !! "OBS_TELESCOPE_NAME" = None
  ∧ _reference_location recording antenna_only_xds (VDatetime 1556073130)
    = centroid_location recording antenna_only_xds (VDatetime 1556073130)
  ∧ centroid_location recording antenna_only_xds (VDatetime 1556073130)
    = Return (VObj "ITRS"
        [VObj "EarthLocation"
           [VObj "mean"
              [VArr [VNum 2225061; VNum (-5440061); VNum (-2481682)]]];
         VObj "Time" [VDatetime 1556073130]]).
Proof.
  split; [reflexivity|]. split; [|vm_compute; reflexivity].
  apply (reference_location_without_known_site recording antenna_only_xds
           (VDatetime 1556073130)).
  left. reflexivity.
Defined.

(** X5: once the site chain succeeds the antenna positions are not looked
    at: putting any [ANT_POSITION] into the partition leaves the returned
    location unchanged. *)
Theorem reference_location_ignores_antennas
    (L : library) (vars ats : gmap string value)
    (reference_time place ant : value) :
  site_location L (Dataset vars ats) reference_time = Return place →
  _reference_location L (Dataset (<["ANT_POSITION" := ant]> vars) ats)
    reference_time = Return place.
Proof.
  intros Hsite. apply _reference_location_site.
  by rewrite site_location_insert_ant.
Qed.

Lemma reference_location_ignores_antennas_witness :
  site_location recording
    (Dataset (<["OBS_TELESCOPE_NAME" := VStr "VLA"]> ∅) ∅) (VDatetime 0)
  = Return (VObj "ITRS" [VObj "EarthLocation.of_site" [VStr "VLA"];
                         VObj "Time" [VDatetime 0]])
  ∧ _reference_location recording
      (Dataset (<["ANT_POSITION" := VStr "no positions"]>
                  (<["OBS_TELESCOPE_NAME" := VStr "VLA"]> ∅)) ∅)
      (VDatetime 0)
    = Return (VObj "ITRS" [VObj "EarthLocation.of_site" [VStr "VLA"];
                           VObj "Time" [VDatetime 0]]).
Proof.
  assert (Hsite : site_location recording
            (Dataset (<["OBS_TELESCOPE_NAME" := VStr "VLA"]> ∅) ∅) (VDatetime 0)
          = Return (VObj "ITRS" [VObj "EarthLocation.of_site" [VStr "VLA"];
                                 VObj "Time" [VDatetime 0]]))
    by (vm_compute; reflexivity).
  split; [exact Hsite|].
  exact (reference_location_ignores_antennas recording
           (<["OBS_TELESCOPE_NAME" := VStr "VLA"]> ∅) ∅ (VDatetime 0) _
           (VStr "no positions") Hsite).
Defined.

(** ** [_target_location] *)

Section TargetFurther.

Context (L : library).

Lemma direction_angle_readable ds d q a :
  data_vars ds !! "SRC_DIRECTION" = Some d →
  times_unit L d "rad" = Return q →
  Angle L q q = Return a →
  direction_angle L ds = Return a.
Proof.
  intros Hd Hq Ha. unfold direction_angle, getattr.
  rewrite Hd. simpl. rewrite Hq. simpl. exact Ha.
Qed.

Lemma direction_angle_absent ds :
  data_vars ds !! "SRC_DIRECTION" = None →
  attrs ds !! "SRC_DIRECTION" = None →
  direction_angle L ds = Raise AttributeError.
Proof.
  intros Hvar Hattr. unfold direction_angle, getattr.
  by rewrite Hvar, Hattr.
Qed.

Lemma proper_motion_bound W gx pm q :
  g_global_xds W = Some gx →
  data_vars gx !! "SRC_PROPER_MOTION" = Some pm →
  times_unit L pm "Hz" = Return q →
  proper_motion L W = Return q.
Proof.
  intros Hgx Hpm Hq. unfold proper_motion, getattr.
  rewrite Hgx. simpl. rewrite Hpm. simpl. exact Hq.
Qed.

End TargetFurther.

(** X6: a partition whose [SRC_DIRECTION] can be read and turned into an
    angle never gets a target location: the angle is bound to
    [radec_string], [radec] stays unbound, and the call raises
    [UnboundLocalError] before [SkyCoord] is reached. *)
Theorem target_location_unbound_radec
    (L : library) (W : world) (ds : dataset) (d q a : value) :
  data_vars ds !! "SRC_DIRECTION" = Some d →
  times_unit L d "rad" = Return q →
  Angle L q q = Return a →
  _target_location L W ds = Raise UnboundLocalError
  ∧ target_locals L W ds ≫= (λ σ, local σ "radec_string") = Return a.
Proof.
  intros Hd Hq Ha.
  pose proof (direction_angle_readable L ds d q a Hd Hq Ha) as Hdir.
  split.
  - by rewrite _target_location_cases, Hdir.
  - rewrite target_locals_eq, Hdir. simpl. unfold local. by simplify_map_eq.
Qed.

Lemma target_location_unbound_radec_witness :
  _target_location recording (module_world 0) complete_xds
    = Raise UnboundLocalError
  ∧ target_locals recording (module_world 0) complete_xds
      ≫= (λ σ, local σ "radec_string")
    = Return (VObj "Angle"
        [VObj "Quantity" [VArr [VNum (114 # 100); VNum (34 # 100)]; VStr "rad"];
         VObj "Quantity" [VArr [VNum (114 # 100); VNum (34 # 100)]; VStr "rad"]]).
Proof.
  exact (target_location_unbound_radec recording (module_world 0) complete_xds
           (VArr [VNum (114 # 100); VNum (34 # 100)])
           (VObj "Quantity" [VArr [VNum (114 # 100); VNum (34 # 100)]; VStr "rad"])
           (VObj "Angle"
              [VObj "Quantity" [VArr [VNum (114 # 100); VNum (34 # 100)]; VStr "rad"];
               VObj "Quantity" [VArr [VNum (114 # 100); VNum (34 # 100)]; VStr "rad"]])
           eq_refl eq_refl eq_refl).
Defined.

(** X7: the partition passed to [_target_location] only decides whether
    the call raises: on any two partitions that both lack [SRC_DIRECTION]
    the outcomes are equal, whatever else the partitions hold. *)
Theorem target_location_ignores_partition
    (L : library) (W : world) (ds1 ds2 : dataset) :
  data_vars ds1 !! "SRC_DIRECTION" = None →
  attrs ds1 !! "SRC_DIRECTION" = None →
  data_vars ds2 !! "SRC_DIRECTION" = None →
  attrs ds2 !! "SRC_DIRECTION" = None →
  _target_location L W ds1 = _target_location L W ds2.
Proof.
  intros Hv1 Ha1 Hv2 Ha2. rewrite !_target_location_cases.
  by rewrite (direction_angle_absent L ds1 Hv1 Ha1),
             (direction_angle_absent L ds2 Hv2 Ha2).
Qed.

Lemma target_location_ignores_partition_witness :
  _target_location recording (notebook_world 0) empty_xds
  = _target_location recording (notebook_world 0) antenna_only_xds.
Proof.
  exact (target_location_ignores_partition recording (notebook_world 0)
           empty_xds antenna_only_xds eq_refl eq_refl eq_refl eq_refl).
Defined.

(** X8: velocity and distance come from module-level names.  When
    [global_xds] is bound at module level to a dataset whose
    [SRC_PROPER_MOTION] times Hz can be formed, and [something] is bound,
    a call on a partition without [SRC_DIRECTION] is the [SkyCoord] call
    on the default direction, ['icrs'], that product and that distance;
    the partition's own proper motion plays no part. *)
Theorem target_location_module_level_fields
    (L : library) (W : world) (ds gx : dataset) (pm q dist : value) :
  g_global_xds W = Some gx →
  data_vars gx !! "SRC_PROPER_MOTION" = Some pm →
  times_unit L pm "Hz" = Return q →
  g_something W = Some dist →
  data_vars ds !! "SRC_DIRECTION" = None →
  attrs ds !! "SRC_DIRECTION" = None →
  _target_location L W ds
  = SkyCoord L default_radec (VStr "icrs") q dist.
Proof.
  intros Hgx Hpm Hq Hdist Hvar Hattr.
  rewrite _target_location_cases, (direction_angle_absent L ds Hvar Hattr).
  unfold chosen_recession, chosen_distance.
  by rewrite (proper_motion_bound L W gx pm q Hgx Hpm Hq), Hdist.
Qed.

Lemma target_location_module_level_fields_witness :
  _target_location recording (module_world 0)
    (Dataset (<["SRC_PROPER_MOTION" := VArr [VNum 7; VNum 7]]> ∅) ∅)
  = Return (VObj "SkyCoord"
      [default_radec; VStr "icrs";
       VObj "Quantity" [VArr [VNum 0; VNum 0]; VStr "Hz"];
       quantity (10 # 1) "pc"]).
Proof.
  exact (target_location_module_level_fields recording (module_world 0)
           (Dataset (<["SRC_PROPER_MOTION" := VArr [VNum 7; VNum 7]]> ∅) ∅)
           complete_xds (VArr [VNum 0; VNum 0])
           (VObj "Quantity" [VArr [VNum 0; VNum 0]; VStr "Hz"])
           (quantity (10 # 1) "pc")
           eq_refl eq_refl eq_refl eq_refl eq_refl eq_refl).
Defined.

(** ** [_change_frame], [topo_to_lsrk] and the spectral-frame cell *)

(** X9: the outcome of [_change_frame] is settled by the module-level
    [img_xds] alone: [NameError] when it is unbound, [KeyError] when its
    attributes have no [rest_frequency], [ValueError] when that attribute
    is a string and [AttributeError] otherwise.  The input array, the
    observer, the target and the library play no part: [SpectralCoord] is
    never called. *)
Theorem change_frame_outcome_ignores_arguments
    (L1 L2 : library) (W : world)
    (input_array1 place1 source1 input_array2 place2 source2 : value) :
  _change_frame L1 W input_array1 place1 source1 =
    match g_img_xds W with
    | None => Raise NameError
    | Some img_xds =>
        match attrs img_xds !! "rest_frequency" with
        | None => Raise KeyError
        | Some (VStr _) => Raise ValueError
        | Some _ => Raise AttributeError
        end
    end
  ∧ _change_frame L1 W input_array1 place1 source1
    = _change_frame L2 W input_array2 place2 source2.
Proof.
  split; [apply _change_frame_outcome|].
  by rewrite !_change_frame_outcome.
Qed.

Section OrchestratorFurther.

Context (L : library).

Lemma _reference_time_returns W ds : ∃ t, _reference_time W ds = Return t.
Proof.
  rewrite _reference_time_cases.
  destruct (asdm_start ds); [destruct (obs_start ds)|]; eauto.
Qed.

Lemma topo_to_lsrk_outcome
    (W : world) (xds ddi reference_time observer_location target_location : value) :
  topo_to_lsrk L W xds ddi reference_time observer_location target_location =
    if g_cngi W then
      vis_xds ← read_vis L xds ddi;
      global_xds ← read_vis L xds (VStr "global");
      place ← _reference_location L global_xds reference_time;
      Raise TypeError
    else Raise NameError.
Proof.
  unfold topo_to_lsrk. destruct (g_cngi W); simpl; [|done].
  destruct (read_vis L xds ddi) as [vis_xds|e]; simpl; [|done].
  destruct (read_vis L xds (VStr "global")) as [global_xds|e]; simpl; [|done].
  destruct (_reference_time_returns W global_xds) as [t ->]. simpl.
  by destruct (_reference_location L global_xds reference_time).
Qed.

End OrchestratorFurther.

(** X10: which exception [topo_to_lsrk] raises.  Without a module-level
    [cngi] it is [NameError]; otherwise it is the exception of the first
    failing partition read or of [_reference_location] on the global
    partition, and [TypeError] once those succeed.  The outcome therefore
    depends on the world only through the binding of [cngi]: neither the
    clock, nor the resolved time, nor [change_frame] matters, and the
    broadcast is never reached. *)
Theorem topo_to_lsrk_exception
    (L : library) (W W' : world)
    (xds ddi reference_time observer_location target_location : value) :
  topo_to_lsrk L W xds ddi reference_time observer_location target_location =
    (if g_cngi W then
       vis_xds ← read_vis L xds ddi;
       global_xds ← read_vis L xds (VStr "global");
       place ← _reference_location L global_xds reference_time;
       Raise TypeError
     else Raise NameError)
  ∧ (g_cngi W = g_cngi W' →
     topo_to_lsrk L W xds ddi reference_time observer_location target_location
     = topo_to_lsrk L W' xds ddi reference_time observer_location
         target_location).
Proof.
  split; [apply topo_to_lsrk_outcome|].
  intros Hcngi. by rewrite !topo_to_lsrk_outcome, Hcngi.
Qed.

Lemma topo_to_lsrk_exception_witness :
  g_cngi (image_world 0)
    = g_cngi (World 1556073130 None None None true (Some (λ _, Return (VNum 1))))
  ∧ topo_to_lsrk recording (image_world 0) (VStr "vis.zarr") (VNum 0)
      (VStr "2019-04-24T02:32:10") (VStr "observer") (VStr "target")
    = topo_to_lsrk recording
        (World 1556073130 None None None true (Some (λ _, Return (VNum 1))))
        (VStr "vis.zarr") (VNum 0)
        (VStr "2019-04-24T02:32:10") (VStr "observer") (VStr "target").
Proof.
  split; [reflexivity|].
  exact (proj2 (topo_to_lsrk_exception recording (image_world 0)
                  (World 1556073130 None None None true
                     (Some (λ _, Return (VNum 1))))
                  (VStr "vis.zarr") (VNum 0) (VStr "2019-04-24T02:32:10")
                  (VStr "observer") (VStr "target"))
           eq_refl).
Defined.

(** X11: the eager spectral-frame cell never binds [sc].  Whatever the
    coordinate access and the constructor do and whatever [observatory]
    and [source] are bound to, the statement raises; in the notebook's own
    world, where [img_xds] is unbound, it raises [NameError], and with an
    image that has a [DATA] variable with a readable [chan] coordinate and
    a string rest frequency it raises [ValueError]. *)
Theorem spectral_coord_cell_raises
    (coord : value → string → outcome value)
    (spectral_coord :
       value → value → value → value → value → value → outcome value)
    (observatory source : option value) :
  (∀ W, returns (spectral_coord_cell coord spectral_coord W observatory source)
        = false)
  ∧ (∀ now, spectral_coord_cell coord spectral_coord (notebook_world now)
              observatory source = Raise NameError)
  ∧ (∀ W img data chan s,
       g_img_xds W = Some img →
       data_vars img !! "DATA" = Some data →
       coord data "chan" = Return chan →
       attrs img !! "rest_frequency" = Some (VStr s) →
       spectral_coord_cell coord spectral_coord W observatory source
       = Raise ValueError).
Proof.
  split; [|split].
  - intros W. unfold spectral_coord_cell.
    apply bind_never_returns; intros img.
    apply bind_never_returns; intros data.
    apply bind_never_returns; intros chan.
    apply bind_never_returns; intros img'.
    apply bind_never_returns; intros rest_frequency.
    by destruct rest_frequency.
  - intros now. reflexivity.
  - intros W img data chan s Himg Hdata Hchan Hrest.
    unfold spectral_coord_cell, getattr, attrs_getitem.
    rewrite Himg. simpl. rewrite Hdata. simpl. rewrite Hchan. simpl.
    by rewrite Hrest.
Qed.

Lemma spectral_coord_cell_raises_witness :
  spectral_coord_cell (λ a name, Return (VObj "coordinate" [a; VStr name]))
    (λ a b c d e f, Return (VObj "SpectralCoord" [a; b; c; d; e; f]))
    (World 0 None None
       (Some (Dataset (<["DATA" := VArr [VNum 1; VNum 2]]> ∅)
                      (<["rest_frequency" := VStr "230.538 GHz"]> ∅)))
       false None)
    (Some (VStr "observatory")) (Some (VStr "source"))
  = Raise ValueError.
Proof.
  exact (proj2 (proj2 (spectral_coord_cell_raises
                  (λ a name, Return (VObj "coordinate" [a; VStr name]))
                  (λ a b c d e f, Return (VObj "SpectralCoord" [a; b; c; d; e; f]))
                  (Some (VStr "observatory")) (Some (VStr "source"))))
           (World 0 None None
              (Some (Dataset (<["DATA" := VArr [VNum 1; VNum 2]]> ∅)
                             (<["rest_frequency" := VStr "230.538 GHz"]> ∅)))
              false None)
           _ (VArr [VNum 1; VNum 2])
           (VObj "coordinate" [VArr [VNum 1; VNum 2]; VStr "chan"])
           "230.538 GHz" eq_refl eq_refl eq_refl eq_refl).
Defined.
